(** * Near-Earth objects and close approaches: models and writers

    A shallow embedding of [models.py] (the record types [NearEarthObject]
    and [CloseApproach], their constructors and derived strings) and of
    [write.py] (the CSV and JSON writers), followed by the properties the
    specification states about them.

    Python exceptions are explicit: a computation that may raise returns a
    [result]; the writers, which also touch the file system, run in a small
    state-and-exception monad over [fs]. *)

From Stdlib Require Import Ascii Floats.
From stdpp Require Import gmap strings list pretty.

Open Scope string_scope.

(** ** Exceptions and results *)

Inductive exn : Type :=
| ValueError
| TypeError
| OSError
| OtherError (cls : string).

#[global] Instance exn_eq_dec : EqDecision exn.
Proof. solve_decision. Defined.

Inductive result (A : Type) : Type :=
| Ok (a : A)
| Raise (e : exn).

Arguments Ok {A} a.
Arguments Raise {A} e.

#[global] Instance result_ret : MRet result := fun A a => Ok a.

#[global] Instance result_bind : MBind result := fun A B k c =>
  match c with
  | Ok a => k a
  | Raise e => Raise e
  end.

(** [try: body except (caught...): handler]: the handler runs only for an
    exception of one of the listed classes; any other exception goes on. *)
Definition try_except {A} (body : result A) (caught : list exn)
    (handler : result A) : result A :=
  match body with
  | Ok a => Ok a
  | Raise e => if bool_decide (e ∈ caught) then handler else Raise e
  end.

(** ** Raw field values

    The constructors receive the cells of a data row: a field is either
    missing ([None]) or a [str]. *)

Inductive raw : Type :=
| RNone
| RStr (s : string).

#[global] Instance raw_eq_dec : EqDecision raw.
Proof. solve_decision. Defined.

(** [bool(v)]: [None] and the empty string are false. *)
Definition truthy (v : raw) : bool :=
  match v with
  | RNone => false
  | RStr s => negb (String.eqb s "")
  end.

(** [str(v)]. *)
Definition py_str (v : raw) : string :=
  match v with
  | RNone => "None"
  | RStr s => s
  end.

(** [v == lit] for a string literal [lit]. *)
Definition eq_str (v : raw) (lit : string) : bool :=
  match v with
  | RNone => false
  | RStr s => String.eqb s lit
  end.

(** Truthiness of an attribute that holds [None] or a [str]. *)
Definition truthy_attr (o : option string) : bool :=
  match o with
  | None => false
  | Some s => negb (String.eqb s "")
  end.

(** An attribute holding [None] or a [str], as an f-string renders it. *)
Definition format_attr (o : option string) : string :=
  match o with
  | None => "None"
  | Some s => s
  end.

(** ** Values handed to the [csv] and [json] modules *)

#[local] Unset Elimination Schemes.

Inductive pyval : Type :=
| VNone
| VBool (b : bool)
| VFloat (x : float)
| VStr (s : string)
| VList (items : list pyval)
| VDict (entries : list (string * pyval)).

#[local] Set Elimination Schemes.

(** A [dict] literal with string keys, in insertion order. *)
Definition dict : Type := list (string * pyval).

(** [d.get(key, default)]. *)
Definition dict_get (d : dict) (key : string) (dflt : pyval) : pyval :=
  match find (fun kv => String.eqb (fst kv) key) d with
  | Some kv => snd kv
  | None => dflt
  end.

(** An attribute holding [None] or a [str], as a value. *)
Definition of_attr (o : option string) : pyval :=
  match o with
  | None => VNone
  | Some s => VStr s
  end.

(** ** The file system

    A file is the sequence of records handed to the library that renders
    it: the rows given to the [csv] writer, or the document and indent
    given to [json.dump].  [open(path, 'w')] raises [OSError] on a path of
    [unwritable], and otherwise creates or truncates the file.  [events]
    logs every handle acquired and released. *)

Inductive chunk : Type :=
| CsvRow (cells : list pyval)
| JsonDump (obj : pyval) (indent : nat).

Inductive event : Type :=
| EOpen (path : string)
| EClose (path : string).

Record fs : Type := {
  files : gmap string (list chunk);
  unwritable : gset string;
  events : list event
}.

(** State and exceptions: an exception keeps the state reached so far. *)
Definition io (A : Type) : Type := fs -> result A * fs.

Definition io_ret {A} (a : A) : io A := fun st => (Ok a, st).

Definition io_raise {A} (e : exn) : io A := fun st => (Raise e, st).

Definition io_bind {A B} (c : io A) (k : A -> io B) : io B := fun st =>
  match c st with
  | (Ok a, st') => k a st'
  | (Raise e, st') => (Raise e, st')
  end.

(** A computation without file-system effects. *)
Definition io_lift {A} (c : result A) : io A := fun st => (c, st).

#[global] Instance io_mret : MRet io := @io_ret.

#[global] Instance io_mbind : MBind io := fun A B k c => io_bind c k.

Definition open_w (path : string) : io unit := fun st =>
  if bool_decide (path ∈ unwritable st) then (Raise OSError, st)
  else (Ok (),
        {| files := <[path := []]> (files st);
           unwritable := unwritable st;
           events := events st ++ [EOpen path] |}).

Definition close (path : string) (st : fs) : fs :=
  {| files := files st;
     unwritable := unwritable st;
     events := events st ++ [EClose path] |}.

(** [with open(path, 'w') as f: body]: the handle is released on every
    exit of the body, normal or exceptional. *)
Definition with_open {A} (path : string) (body : io A) : io A := fun st =>
  match open_w path st with
  | (Ok _, st1) => let (r, st2) := body st1 in (r, close path st2)
  | (Raise e, st1) => (Raise e, st1)
  end.

(** One more record written through the handle on [path]. *)
Definition write_chunk (path : string) (c : chunk) : io unit := fun st =>
  (Ok (),
   {| files :=
        <[path := (default [] (files st !! path) ++ [c])%list]> (files st);
      unwritable := unwritable st;
      events := events st |}).

(** ** [csv.DictWriter] (default [restval=''], [extrasaction='raise']) *)

Definition DictWriter_dict_to_list (fieldnames : list string)
    (rowdict : dict) : result (list pyval) :=
  if forallb (fun kv => bool_decide (fst kv ∈ fieldnames)) rowdict
  then Ok ((fun key => dict_get rowdict key (VStr "")) <$> fieldnames)
  else Raise ValueError.

Definition DictWriter_writerow (path : string) (fieldnames : list string)
    (rowdict : dict) : io unit :=
  cells ← io_lift (DictWriter_dict_to_list fieldnames rowdict);
  write_chunk path (CsvRow cells).

(** [writeheader()] is [writerow(dict(zip(fieldnames, fieldnames)))]. *)
Definition DictWriter_writeheader (path : string)
    (fieldnames : list string) : io unit :=
  DictWriter_writerow path fieldnames (zip fieldnames (VStr <$> fieldnames)).

(** ** Iterables

    What a [for] loop sees of [results]: the items yielded one by one,
    until the iterator is exhausted or its [__next__] raises. *)

Inductive iterable (A : Type) : Type :=
| StopIteration
| Yield (item : A) (rest : iterable A)
| IterRaise (e : exn).

Arguments StopIteration {A}.
Arguments Yield {A} item rest.
Arguments IterRaise {A} e.

(** A list (or any iterable that runs to its end) as an iterable. *)
Fixpoint iter {A} (l : list A) : iterable A :=
  match l with
  | [] => StopIteration
  | x :: l' => Yield x (iter l')
  end.

(** The items yielded before the iteration ends. *)
Fixpoint items {A} (it : iterable A) : list A :=
  match it with
  | StopIteration => []
  | Yield x rest => x :: items rest
  | IterRaise _ => []
  end.

(** The exception, if any, that iterating to the end runs into. *)
Fixpoint iter_error {A} (it : iterable A) : option exn :=
  match it with
  | StopIteration => None
  | Yield _ rest => iter_error rest
  | IterRaise e => Some e
  end.

(** ** The interpreter's float builtins

    [float(s)] on a string and the [.2f] format are the interpreter's, not
    this program's; they are taken as an interface.  [float_of_str s] is
    [None] where [float(s)] raises [ValueError].  The two laws are the
    ones the program relies on: the empty string is no number, and the
    literal ["nan"] denotes the not-a-number value. *)

Class Builtins : Type := {
  float_of_str : string -> option float;
  format_2f : float -> string;
  float_of_str_empty : float_of_str "" = None;
  float_of_str_nan : float_of_str "nan" = Some nan
}.

(** ** The helpers module

    [helpers.cd_to_datetime] and [helpers.datetime_to_str] are imported by
    [models.py]; the timestamp type and both conversions are parameters. *)

Class Helpers : Type := {
  datetime : Type;
  cd_to_datetime : raw -> result datetime;
  datetime_to_str : datetime -> string
}.

Section Models.

Context `{B : Builtins} `{H : Helpers}.

(** [float(v)]: [TypeError] on [None], [ValueError] on a string that is
    not a number. *)
Definition py_float (v : raw) : result float :=
  match v with
  | RNone => Raise TypeError
  | RStr s =>
      match float_of_str s with
      | Some x => Ok x
      | None => Raise ValueError
      end
  end.

(** ** [NearEarthObject] *)

Record NearEarthObject : Type := {
  designation : option string;
  name : option string;
  diameter : float;
  hazardous : bool;
  (* keys of the linked close approaches, in linking order *)
  approaches : list nat
}.

(** [NearEarthObject.__init__(pdes, name, pha, diameter, **info)]. *)
Definition NearEarthObject_init (pdes name' pha diameter' : raw)
    (info : list (string * raw)) : result NearEarthObject :=
  let self_designation := if truthy pdes then Some (py_str pdes) else None in
  let self_name := if truthy name' then Some (py_str name') else None in
  self_diameter ←
    try_except (py_float diameter') [ValueError; TypeError]
               (py_float (RStr "nan"));
  let self_hazardous := eq_str pha "Y" in
  Ok {| designation := self_designation;
        name := self_name;
        diameter := self_diameter;
        hazardous := self_hazardous;
        approaches := [] |}.

(** [str + str]; [TypeError] when either operand is [None]. *)
Definition str_add (a b : option string) : result string :=
  match a, b with
  | Some x, Some y => Ok (x ++ y)
  | _, _ => Raise TypeError
  end.

(** [NearEarthObject.fullname]: [self.designation + ' ' + self.name]. *)
Definition fullname (self : NearEarthObject) : result string :=
  left ← str_add (designation self) (Some " ");
  str_add (Some left) (name self).

(** ** [CloseApproach] *)

Record CloseApproach : Type := {
  _designation : option string;
  time : datetime;
  distance : float;
  velocity : float;
  neo : option NearEarthObject
}.

(** [CloseApproach.__init__(des, cd, dist, v_rel, **info)]. *)
Definition CloseApproach_init (des cd dist v_rel : raw)
    (info : list (string * raw)) : result CloseApproach :=
  let self_designation := if truthy des then Some (py_str des) else None in
  self_time ← cd_to_datetime cd;
  self_distance ←
    try_except (py_float dist) [ValueError; TypeError]
               (py_float (RStr "nan"));
  self_velocity ←
    try_except (py_float v_rel) [ValueError; TypeError]
               (py_float (RStr "nan"));
  Ok {| _designation := self_designation;
        time := self_time;
        distance := self_distance;
        velocity := self_velocity;
        neo := None |}.

(** [CloseApproach.time_str]. *)
Definition time_str (self : CloseApproach) : string :=
  datetime_to_str (time self).

(** The [neo_reference] local of [CloseApproach.__str__].  An object
    without [__bool__] is true, so [self.neo and self.neo.name] holds
    exactly when a NEO is linked and its name is true. *)
Definition neo_reference (self : CloseApproach) : string :=
  if truthy_attr (_designation self) then
    "by " ++
    format_attr
      match neo self with
      | Some n => if truthy_attr (name n) then name n else _designation self
      | None => _designation self
      end
  else "by an unknown object".

(** [CloseApproach.__str__]. *)
Definition CloseApproach_str (self : CloseApproach) : string :=
  let dist_str :=
    if PrimFloat.is_nan (distance self) then "an unknown distance"
    else format_2f (distance self) ++ " au" in
  let vel_str :=
    if PrimFloat.is_nan (velocity self) then "an unknown velocity"
    else format_2f (velocity self) ++ " km/s" in
  "A CloseApproach at " ++ time_str self ++ " " ++ neo_reference self ++
  ", approaching at " ++ dist_str ++ " and a velocity of " ++ vel_str ++ ".".

(** ** [write_to_csv] *)

Definition fieldnames : list string :=
  ["datetime_utc"; "distance_au"; "velocity_km_s";
   "designation"; "name"; "diameter_km"; "potentially_hazardous"].

(** The dict literal passed to [writer.writerow].  Only [float('nan')]
    is a call; the other entries are attribute reads. *)
Definition csv_rowdict (approach : CloseApproach) : result dict :=
  let neo' := neo approach in
  diameter_km ←
    match neo' with
    | Some n => Ok (diameter n)
    | None => py_float (RStr "nan")
    end;
  Ok [("datetime_utc", VStr (time_str approach));
      ("distance_au", VFloat (distance approach));
      ("velocity_km_s", VFloat (velocity approach));
      ("designation",
        match neo' with
        | Some n => of_attr (designation n)
        | None => VStr ""
        end);
      ("name",
        match neo' with
        | Some n => if truthy_attr (name n) then of_attr (name n) else VStr ""
        | None => VStr ""
        end);
      ("diameter_km", VFloat diameter_km);
      ("potentially_hazardous",
        match neo' with
        | Some n => VBool (hazardous n)
        | None => VBool false
        end)].

(** The [for approach in results] loop of [write_to_csv]. *)
Fixpoint csv_loop (results : iterable CloseApproach) (path : string)
    : io unit :=
  match results with
  | StopIteration => io_ret ()
  | IterRaise e => io_raise e
  | Yield approach rest =>
      rowdict ← io_lift (csv_rowdict approach);
      DictWriter_writerow path fieldnames rowdict ;;
      csv_loop rest path
  end.

Definition write_to_csv (results : iterable CloseApproach)
    (filename : string) : io unit :=
  with_open filename
    (DictWriter_writeheader filename fieldnames ;;
     csv_loop results filename).

(** ** [write_to_json] *)

(** The [entry] dict literal. *)
Definition json_entry (approach : CloseApproach) : result pyval :=
  let neo' := neo approach in
  diameter_km ←
    match neo' with
    | Some n => Ok (diameter n)
    | None => py_float (RStr "nan")
    end;
  Ok (VDict
        [("datetime_utc", VStr (time_str approach));
         ("distance_au", VFloat (distance approach));
         ("velocity_km_s", VFloat (velocity approach));
         ("neo", VDict
            [("designation",
               match neo' with
               | Some n => of_attr (designation n)
               | None => VStr ""
               end);
             ("name",
               match neo' with
               | Some n =>
                   if truthy_attr (name n) then of_attr (name n) else VStr ""
               | None => VStr ""
               end);
             ("diameter_km", VFloat diameter_km);
             ("potentially_hazardous",
               match neo' with
               | Some n => VBool (hazardous n)
               | None => VBool false
               end)])]).

(** The [for approach in results] loop of [write_to_json], appending to
    [output]. *)
Fixpoint json_loop (results : iterable CloseApproach)
    (output : list pyval) : result (list pyval) :=
  match results with
  | StopIteration => Ok output
  | IterRaise e => Raise e
  | Yield approach rest =>
      entry ← json_entry approach;
      json_loop rest (output ++ [entry])%list
  end.

Definition write_to_json (results : iterable CloseApproach)
    (filename : string) : io unit :=
  output ← io_lift (json_loop results []);
  with_open filename
    (write_chunk filename (JsonDump (VList output) 2)).

End Models.

(** ** [NearEarthObject.__str__]

    An f-string renders a float without a format spec as [str(x)], again
    the interpreter's. *)

Class Display : Type := {
  float_str : float -> string
}.

Section Displayed.

Context `{B : Builtins} `{D : Display}.

(** [NearEarthObject.__str__].  [self.name or 'unnamed'] is the name when
    it is true and ['unnamed'] otherwise. *)
Definition NearEarthObject_str (self : NearEarthObject) : string :=
  "NEO " ++ format_attr (designation self) ++
  " (" ++
  (if truthy_attr (name self) then format_attr (name self) else "unnamed") ++
  "), " ++
  (if hazardous self then "hazardous" else "non-hazardous") ++
  ", diameter: " ++
  (if negb (PrimFloat.is_nan (diameter self)) then float_str (diameter self)
   else "unknown") ++
  " km".

End Displayed.

(** ** The values the specification lists for one exported record

    Written from the specification's words (section 4.3 and 4.4), to be
    compared with what the two writers put in the file. *)

Section Exported.

Context `{B : Builtins} `{H : Helpers}.

(** A numeric field is missing or unparsable when [float] raises on it. *)
Definition unparsable (v : raw) : Prop := exists e, py_float v = Raise e.

(** The value a constructor stores for one numeric field. *)
Definition stores_diameter (v : raw) (x : float) : Prop :=
  forall pdes name' pha info, exists self,
    NearEarthObject_init pdes name' pha v info = Ok self /\
    diameter self = x.

Definition stores_distance (v : raw) (x : float) : Prop :=
  forall des cd v_rel info t, cd_to_datetime cd = Ok t -> exists self,
    CloseApproach_init des cd v v_rel info = Ok self /\
    distance self = x.

Definition stores_velocity (v : raw) (x : float) : Prop :=
  forall des cd dist info t, cd_to_datetime cd = Ok t -> exists self,
    CloseApproach_init des cd dist v info = Ok self /\
    velocity self = x.

(** The phrase [CloseApproach.__str__] gives a numeric field, read off the
    raw field: unknown when [float] raises on it or yields not-a-number. *)
Definition phrase_of (v : raw) (what unit : string) : string :=
  match py_float v with
  | Ok x =>
      if PrimFloat.is_nan x then "an unknown " ++ what
      else format_2f x ++ " " ++ unit
  | Raise _ => "an unknown " ++ what
  end.

(** How a [for] loop over an iterable ends when its body does not raise. *)
Definition iteration_outcome {A} (it : iterable A) : result () :=
  match iter_error it with
  | None => Ok ()
  | Some e => Raise e
  end.

(** The header row of the tabular export. *)
Definition header : chunk :=
  CsvRow [VStr "datetime_utc"; VStr "distance_au"; VStr "velocity_km_s";
          VStr "designation"; VStr "name"; VStr "diameter_km";
          VStr "potentially_hazardous"].

(** In column order: datetime, distance, velocity, designation, name,
    diameter and hazardous, with the defaults of a missing NEO. *)
Definition exported (a : CloseApproach) : list pyval :=
  [VStr (time_str a); VFloat (distance a); VFloat (velocity a)] ++
  match neo a with
  | Some n =>
      [of_attr (designation n);
       if truthy_attr (name n) then of_attr (name n) else VStr "";
       VFloat (diameter n);
       VBool (hazardous n)]
  | None => [VStr ""; VStr ""; VFloat nan; VBool false]
  end.

(** The nested record of the structured export: datetime, distance and
    velocity, and a ["neo"] record with designation, name, diameter and
    hazardous, with the same defaults of a missing NEO. *)
Definition nested (a : CloseApproach) : pyval :=
  VDict
    [("datetime_utc", VStr (time_str a));
     ("distance_au", VFloat (distance a));
     ("velocity_km_s", VFloat (velocity a));
     ("neo", VDict
        match neo a with
        | Some n =>
            [("designation", of_attr (designation n));
             ("name",
               if truthy_attr (name n) then of_attr (name n) else VStr "");
             ("diameter_km", VFloat (diameter n));
             ("potentially_hazardous", VBool (hazardous n))]
        | None =>
            [("designation", VStr "");
             ("name", VStr "");
             ("diameter_km", VFloat nan);
             ("potentially_hazardous", VBool false)]
        end)].

(** The value a nested record holds for a column of the tabular schema:
    a key of the record itself, or else a key of its ["neo"] record. *)
Definition json_field (entry : pyval) (key : string) : option pyval :=
  match entry with
  | VDict top =>
      match find (fun kv => String.eqb (fst kv) key) top with
      | Some kv => Some (snd kv)
      | None =>
          match dict_get top "neo" VNone with
          | VDict inner =>
              snd <$> find (fun kv => String.eqb (fst kv) key) inner
          | _ => None
          end
      end
  | _ => None
  end.

(** The object reference phrase as the specification words it: the linked
    NEO's name when present, else the linked NEO's designation; without a
    link the designation snapshot; otherwise an unknown object. *)
Definition worded_reference (self : CloseApproach) : string :=
  match neo self with
  | Some n =>
      "by " ++ format_attr (if truthy_attr (name n) then name n
                            else designation n)
  | None =>
      if truthy_attr (_designation self)
      then "by " ++ format_attr (_designation self)
      else "by an unknown object"
  end.

End Exported.

(** ** Stand-ins for the interface, used by the examples

    The theorems below hold for every [Builtins] and [Helpers]; the
    examples run them on these instances. *)

Module Sample.

Definition digit_value (c : ascii) : option Z :=
  let n := Z.of_nat (nat_of_ascii c) in
  if ((48 <=? n) && (n <=? 57))%Z then Some (n - 48)%Z else None.

(** Digits with at most one point: mantissa, digits seen, digits after
    the point. *)
Fixpoint decimal (s : string) (mant : Z) (seen : nat) (frac : option nat)
    : option (Z * nat * nat) :=
  match s with
  | EmptyString => Some (mant, seen, default 0%nat frac)
  | String c s' =>
      if Ascii.eqb c "." then
        match frac with
        | None => decimal s' mant seen (Some 0%nat)
        | Some _ => None
        end
      else
        match digit_value c with
        | Some d => decimal s' (10 * mant + d)%Z (S seen) (S <$> frac)
        | None => None
        end
  end.

Definition float_of_Z (z : Z) : float := PrimFloat.of_uint63 (Uint63.of_Z z).

(** Plain unsigned decimals and ["nan"]. *)
Definition parse_decimal (s : string) : option float :=
  if String.eqb s "nan" then Some nan
  else
    match decimal s 0 0 None with
    | Some (mant, S _, frac) =>
        Some (PrimFloat.div (float_of_Z mant)
                            (float_of_Z (10 ^ Z.of_nat frac)))
    | _ => None
    end.

Definition two_digits (n : Z) : string :=
  (if (n <? 10)%Z then "0" else "") ++ pretty n.

(** Two decimals, the exact binary value rounded half to even. *)
Definition round_2f (x : float) : string :=
  match Prim2SF x with
  | S754_nan => "nan"
  | S754_infinity s => if s then "-inf" else "inf"
  | S754_zero s => (if s then "-" else "") ++ "0.00"
  | S754_finite s m e =>
      let num := (Z.pos m * 100 * 2 ^ Z.max e 0)%Z in
      let den := (2 ^ Z.max (- e) 0)%Z in
      let q := (num / den)%Z in
      let r := (num mod den)%Z in
      let n :=
        if (2 * r <? den)%Z then q
        else if (den <? 2 * r)%Z then (q + 1)%Z
        else if Z.even q then q else (q + 1)%Z in
      (if s then "-" else "") ++ pretty (n / 100)%Z ++ "." ++
      two_digits (n mod 100)%Z
  end.

(** [num / 10 ^ k] with its trailing zeros dropped. *)
Fixpoint drop_zeros (k : nat) (num : Z) : Z * nat :=
  match k with
  | O => (num, O)
  | S k' =>
      if (num mod 10 =? 0)%Z then drop_zeros k' (num / 10)%Z else (num, k)
  end.

Fixpoint zeros (n : nat) : string :=
  match n with
  | O => ""
  | S n' => "0" ++ zeros n'
  end.

(** The exact decimal expansion of a float; on short decimals it is the
    text [str(x)] gives. *)
Definition exact_str (x : float) : string :=
  match Prim2SF x with
  | S754_nan => "nan"
  | S754_infinity s => if s then "-inf" else "inf"
  | S754_zero s => if s then "-0.0" else "0.0"
  | S754_finite s m e =>
      let k := Z.to_nat (- e) in
      let scaled := (Z.pos m * 2 ^ Z.max e 0 * 5 ^ Z.of_nat k)%Z in
      let '(num, k') := drop_zeros k scaled in
      let whole := (num / 10 ^ Z.of_nat k')%Z in
      let frac := pretty (num mod 10 ^ Z.of_nat k')%Z in
      (if s then "-" else "") ++ pretty whole ++ "." ++
      (if k' is O then "0"
       else zeros (k' - String.length frac) ++ frac)
  end.

#[export] Instance display : Display := {| float_str := exact_str |}.

#[export] Instance builtins : Builtins := {|
  float_of_str := parse_decimal;
  format_2f := round_2f;
  float_of_str_empty := eq_refl;
  float_of_str_nan := eq_refl
|}.

(** Timestamps kept as their calendar string. *)
#[export] Instance helpers : Helpers := {|
  datetime := string;
  cd_to_datetime v :=
    match v with
    | RNone => Raise TypeError
    | RStr s => if String.eqb s "" then Raise ValueError else Ok s
    end;
  datetime_to_str dt := dt
|}.

Definition eros : NearEarthObject :=
  {| designation := Some "433"; name := Some "Eros";
     diameter := 16.75%float; hazardous := false; approaches := [] |}.

Definition approach_of (des : option string) (n : option NearEarthObject)
    : CloseApproach :=
  {| _designation := des; time := "2020-Jan-01 12:30";
     distance := 0.25%float; velocity := 4.5%float; neo := n |}.

(** A NEO whose row had a name but no designation. *)
Definition nameless_key : NearEarthObject :=
  {| designation := None; name := Some "Eros";
     diameter := 16.75%float; hazardous := false; approaches := [] |}.

(** A NEO without a name, under another designation. *)
Definition unnamed : NearEarthObject :=
  {| designation := Some "434"; name := None;
     diameter := nan; hazardous := false; approaches := [] |}.

Definition empty_fs : fs :=
  {| files := ∅; unwritable := ∅; events := [] |}.

(** A file system where ["/proc/out"] cannot be written. *)
Definition locked_fs : fs :=
  {| files := ∅; unwritable := {["/proc/out"]}; events := [] |}.

(** Two records, the second one without a linked NEO. *)
Definition two_records : list CloseApproach :=
  [approach_of (Some "433") (Some eros); approach_of (Some "2020 AB") None].

(** A file system that already holds text at the destination. *)
Definition stale_fs : fs :=
  {| files := {["out.csv" := [CsvRow [VStr "old"]; CsvRow [VStr "rows"]]]};
     unwritable := ∅; events := [] |}.

(** A generator that yields one record and then raises. *)
Definition failing : iterable CloseApproach :=
  Yield (approach_of (Some "433") (Some eros))
        (IterRaise (OtherError "RuntimeError")).

End Sample.

(** * Properties *)

Section Construction.

Context `{B : Builtins} `{H : Helpers}.

(** [float('nan')] evaluates to the not-a-number value. *)
Lemma float_nan_literal : py_float (RStr "nan") = Ok nan.
Proof. unfold py_float. now rewrite float_of_str_nan. Qed.

(** [float] raises nothing but the two classes the constructors catch. *)
Lemma py_float_raises (v : raw) (e : exn) :
  py_float v = Raise e -> e = ValueError \/ e = TypeError.
Proof.
  destruct v as [|s]; simpl.
  - intros [= <-]. now right.
  - destruct (float_of_str s); [discriminate|]. intros [= <-]. now left.
Qed.

(** The guarded conversion of a numeric field: the parsed value, or
    not-a-number when [float] raises. *)
Lemma guarded_float (v : raw) :
  try_except (py_float v) [ValueError; TypeError] (py_float (RStr "nan")) =
  Ok match py_float v with Ok x => x | Raise _ => nan end.
Proof.
  destruct (py_float v) as [x|e] eqn:E; simpl; [reflexivity|].
  destruct (py_float_raises _ _ E) as [-> | ->]; simpl;
    apply float_nan_literal.
Qed.

Lemma NearEarthObject_init_eq (pdes name' pha diameter' : raw)
    (info : list (string * raw)) :
  NearEarthObject_init pdes name' pha diameter' info =
  Ok {| designation := if truthy pdes then Some (py_str pdes) else None;
        name := if truthy name' then Some (py_str name') else None;
        diameter := match py_float diameter' with
                    | Ok x => x
                    | Raise _ => nan
                    end;
        hazardous := eq_str pha "Y";
        approaches := [] |}.
Proof. unfold NearEarthObject_init. now rewrite guarded_float. Qed.

Lemma CloseApproach_init_eq (des cd dist v_rel : raw)
    (info : list (string * raw)) (t : datetime) :
  cd_to_datetime cd = Ok t ->
  CloseApproach_init des cd dist v_rel info =
  Ok {| _designation := if truthy des then Some (py_str des) else None;
        time := t;
        distance := match py_float dist with Ok x => x | Raise _ => nan end;
        velocity := match py_float v_rel with Ok x => x | Raise _ => nan end;
        neo := None |}.
Proof.
  intros Ht. unfold CloseApproach_init. rewrite Ht. simpl.
  now rewrite !guarded_float.
Qed.

Lemma eq_str_true (v : raw) (lit : string) :
  eq_str v lit = true <-> v = RStr lit.
Proof.
  destruct v as [|s]; simpl.
  - split; discriminate.
  - rewrite String.eqb_eq. split; [now intros ->|now intros [= ->]].
Qed.

Lemma append_assoc (a b c : string) : (a ++ b) ++ c = a ++ b ++ c.
Proof.
  induction a as [|ch a IH]; [reflexivity|].
  change (String ch ((a ++ b) ++ c) = String ch (a ++ b ++ c)).
  now f_equal.
Qed.

(** C1. The constructors never raise on a missing or unparsable
    designation, name, diameter, distance, velocity or hazard flag: given
    only that the calendar string converts, both complete for every value
    of those fields, and a missing string field is stored as [None], an
    unparsable numeric field as not-a-number, and any hazard flag other
    than ["Y"] as [False]. *)
Theorem construction_is_total
    (pdes name' pha diameter' des cd dist v_rel : raw)
    (info : list (string * raw)) (t : datetime) :
  cd_to_datetime cd = Ok t ->
  (exists self,
      NearEarthObject_init pdes name' pha diameter' info = Ok self /\
      (truthy pdes = false -> designation self = None) /\
      (truthy name' = false -> name self = None) /\
      (unparsable diameter' -> diameter self = nan) /\
      (pha <> RStr "Y" -> hazardous self = false)) /\
  (exists self,
      CloseApproach_init des cd dist v_rel info = Ok self /\
      (truthy des = false -> _designation self = None) /\
      (unparsable dist -> distance self = nan) /\
      (unparsable v_rel -> velocity self = nan)).
Proof.
  intros Ht. split.
  - eexists. split; [apply NearEarthObject_init_eq|]. simpl.
    repeat split.
    + now intros ->.
    + now intros ->.
    + now intros [e ->].
    + intros Hpha. apply not_true_is_false. now rewrite eq_str_true.
  - eexists. split; [apply (CloseApproach_init_eq _ _ _ _ _ t Ht)|]. simpl.
    repeat split.
    + now intros ->.
    + now intros [e ->].
    + now intros [e ->].
Qed.

(** C2. Whatever the raw fields, the constructed object's [hazardous] is
    true exactly when the raw flag is the string ["Y"]. *)
Theorem hazardous_iff_flag_is_Y (pdes name' pha diameter' : raw)
    (info : list (string * raw)) :
  exists self,
    NearEarthObject_init pdes name' pha diameter' info = Ok self /\
    (hazardous self = true <-> pha = RStr "Y").
Proof.
  eexists. split; [apply NearEarthObject_init_eq|]. simpl.
  apply eq_str_true.
Qed.

Lemma stores_guarded (v : raw) :
  let x := match py_float v with Ok x => x | Raise _ => nan end in
  stores_diameter v x /\ stores_distance v x /\ stores_velocity v x.
Proof.
  repeat split.
  - intros pdes name' pha info. eexists.
    split; [apply NearEarthObject_init_eq|reflexivity].
  - intros des cd v_rel info t Ht. eexists.
    split; [apply (CloseApproach_init_eq _ _ _ _ _ t Ht)|reflexivity].
  - intros des cd dist info t Ht. eexists.
    split; [apply (CloseApproach_init_eq _ _ _ _ _ t Ht)|reflexivity].
Qed.

(** C3. A diameter, distance or velocity string that parses as a number
    is stored as the parsed value; [None], the empty string and every
    string that does not parse are stored as not-a-number. *)
Theorem numeric_fields_parse_or_nan :
  (forall s x, float_of_str s = Some x ->
     stores_diameter (RStr s) x /\
     stores_distance (RStr s) x /\
     stores_velocity (RStr s) x) /\
  (forall v,
     v = RNone \/ v = RStr "" \/
     (exists s, v = RStr s /\ float_of_str s = None) ->
     stores_diameter v nan /\
     stores_distance v nan /\
     stores_velocity v nan).
Proof.
  split.
  - intros s x Hs. pose proof (stores_guarded (RStr s)) as G.
    simpl in G. now rewrite Hs in G.
  - intros v Hv. pose proof (stores_guarded v) as G.
    destruct Hv as [-> | [-> | (s & -> & Hs)]]; simpl in G.
    + exact G.
    + now rewrite float_of_str_empty in G.
    + now rewrite Hs in G.
Qed.

(** C8. With designation and name both present, the full name is the
    designation, one space, and the name, so ["433 Eros"] for ["433"]
    and ["Eros"]; with the name absent the accessor raises. *)
Theorem fullname_concatenates (self : NearEarthObject) :
  (forall d m, designation self = Some d -> name self = Some m ->
     fullname self = Ok (d ++ " " ++ m)) /\
  (forall pha diameter' info,
     NearEarthObject_init (RStr "433") (RStr "Eros") pha diameter' info
       ≫= fullname = Ok "433 Eros") /\
  (name self = None -> fullname self = Raise TypeError).
Proof.
  repeat split.
  - intros d m Hd Hm. unfold fullname. rewrite Hd, Hm. simpl.
    f_equal. apply append_assoc.
  - intros pha diameter' info. now rewrite NearEarthObject_init_eq.
  - intros Hm. unfold fullname. rewrite Hm.
    now destruct (designation self).
Qed.

(** C7, as amended.  Without a designation snapshot the phrase is always
    "by an unknown object", linked or not.  With a snapshot, the phrase
    names the linked NEO's name when there is a link and that name is
    present, and the snapshot otherwise. *)
Theorem neo_reference_selection (self : CloseApproach) :
  (truthy_attr (_designation self) = false ->
     neo_reference self = "by an unknown object") /\
  (forall d, _designation self = Some d -> d <> "" ->
     (forall n m, neo self = Some n -> name n = Some m -> m <> "" ->
        neo_reference self = "by " ++ m) /\
     (forall n, neo self = Some n -> truthy_attr (name n) = false ->
        neo_reference self = "by " ++ d) /\
     (neo self = None -> neo_reference self = "by " ++ d)) /\
  ((forall n, neo self = Some n ->
      truthy_attr (_designation self) = true /\
      (truthy_attr (name n) = false -> designation n = _designation self)) ->
   neo_reference self = worded_reference self).
Proof.
  unfold neo_reference, worded_reference. split; [|split].
  - now intros ->.
  - intros d Hd Hne. apply String.eqb_neq in Hne.
    rewrite Hd. simpl. rewrite Hne. simpl. repeat split.
    + intros n m -> Hm Hmne. apply String.eqb_neq in Hmne.
      rewrite Hm. simpl. now rewrite Hmne.
    + now intros n -> ->.
    + now intros ->.
  - intros Hlink. destruct (neo self) as [n|]; [|reflexivity].
    destruct (Hlink n eq_refl) as [-> Hdes].
    destruct (truthy_attr (name n)); [reflexivity|].
    now rewrite Hdes.
Qed.

End Construction.

Section Writers.

Context `{B : Builtins} `{H : Helpers}.

(** An iterable that runs to its end is the list of its items. *)
Lemma iter_items {A} (it : iterable A) :
  iter_error it = None -> it = iter (items it).
Proof.
  induction it as [|x rest IH|e]; simpl; intros E.
  - reflexivity.
  - now rewrite <- IH.
  - discriminate.
Qed.

(** The row dict of one approach, laid out by the [DictWriter], is the
    list of exported values. *)
Lemma csv_rowdict_cells (a : CloseApproach) :
  csv_rowdict a ≫= DictWriter_dict_to_list fieldnames = Ok (exported a).
Proof.
  unfold csv_rowdict, exported.
  destruct (neo a) as [n|]; [|rewrite float_nan_literal]; reflexivity.
Qed.

Lemma json_entry_nested (a : CloseApproach) : json_entry a = Ok (nested a).
Proof.
  unfold json_entry, nested, exported.
  destruct (neo a) as [n|]; [|rewrite float_nan_literal]; reflexivity.
Qed.

(** The loop of [write_to_csv] appends one row per item, in order. *)
Lemma csv_loop_iter (l : list CloseApproach) (path : string) :
  forall (st : fs) (rows : list chunk),
    files st !! path = Some rows ->
    csv_loop (iter l) path st =
    (Ok (),
     {| files :=
          <[path := (rows ++ (CsvRow ∘ exported <$> l))%list]> (files st);
        unwritable := unwritable st;
        events := events st |}).
Proof.
  induction l as [|a l IH]; intros st rows Hrows.
  - simpl. unfold io_ret. rewrite app_nil_r, insert_id by exact Hrows.
    now destruct st.
  - pose proof (csv_rowdict_cells a) as Hcells.
    simpl. unfold mbind, io_mbind, io_bind at 1, io_lift at 1.
    destruct (csv_rowdict a) as [d|e]; [|discriminate]. simpl in Hcells.
    unfold io_bind at 1, DictWriter_writerow, mbind, io_mbind.
    unfold io_bind at 1, io_lift.
    rewrite Hcells. unfold write_chunk at 1. rewrite Hrows. simpl.
    erewrite IH by (simpl; apply lookup_insert_eq).
    simpl. now rewrite insert_insert_eq, <- app_assoc.
Qed.

(** [write_to_csv] on a writable path and an input that runs to its end:
    the file is replaced by the header and one row per item. *)
Lemma write_to_csv_iter (l : list CloseApproach) (path : string) (st : fs) :
  path ∉ unwritable st ->
  write_to_csv (iter l) path st =
  (Ok (),
   {| files := <[path := CsvRow (VStr <$> fieldnames) ::
                          (CsvRow ∘ exported <$> l)]> (files st);
      unwritable := unwritable st;
      events := (events st ++ [EOpen path; EClose path])%list |}).
Proof.
  intros Hw. unfold write_to_csv, with_open, open_w.
  rewrite bool_decide_eq_false_2 by exact Hw.
  unfold mbind, io_mbind, io_bind at 1.
  unfold DictWriter_writeheader, DictWriter_writerow, mbind, io_mbind.
  unfold io_bind at 1, io_lift.
  change (DictWriter_dict_to_list fieldnames
            (zip fieldnames (VStr <$> fieldnames)))
    with (Ok (VStr <$> fieldnames)).
  unfold write_chunk. simpl files. rewrite lookup_insert_eq. simpl.
  erewrite csv_loop_iter by (simpl; apply lookup_insert_eq).
  unfold close. simpl.
  now rewrite !insert_insert_eq, <- app_assoc.
Qed.

(** The loop of [write_to_json] appends one nested record per item. *)
Lemma json_loop_iter (l : list CloseApproach) :
  forall output,
    json_loop (iter l) output = Ok (output ++ (nested <$> l))%list.
Proof.
  induction l as [|a l IH]; intros output; simpl.
  - now rewrite app_nil_r.
  - rewrite json_entry_nested. simpl. now rewrite IH, <- app_assoc.
Qed.

Lemma write_to_json_iter (l : list CloseApproach) (path : string) (st : fs) :
  path ∉ unwritable st ->
  write_to_json (iter l) path st =
  (Ok (),
   {| files := <[path := [JsonDump (VList (nested <$> l)) 2]]> (files st);
      unwritable := unwritable st;
      events := (events st ++ [EOpen path; EClose path])%list |}).
Proof.
  intros Hw. unfold write_to_json, mbind, io_mbind, io_bind, io_lift.
  rewrite json_loop_iter. simpl.
  unfold with_open, open_w. rewrite bool_decide_eq_false_2 by exact Hw.
  unfold write_chunk, close. simpl. rewrite lookup_insert_eq. simpl.
  now rewrite insert_insert_eq, <- app_assoc.
Qed.

(** An input that raises makes the loop of [write_to_json] raise. *)
Lemma json_loop_raises (results : iterable CloseApproach) (e : exn) :
  iter_error results = Some e ->
  forall output, json_loop results output = Raise e.
Proof.
  induction results as [|a rest IH|e']; simpl; intros E output.
  - discriminate.
  - rewrite json_entry_nested. simpl. now apply IH.
  - now injection E as ->.
Qed.

(** C4. On a writable destination, for an input that runs to its end
    with N records, [write_to_csv] leaves a file of exactly the header
    row followed by N data rows, one per record in input order, each
    holding the seven exported values in the order of the header; for no
    record the file is the header alone. *)
Theorem csv_header_and_one_row_per_record
    (results : iterable CloseApproach) (filename : string) (st : fs) :
  iter_error results = None ->
  filename ∉ unwritable st ->
  exists st' rows,
    write_to_csv results filename st = (Ok (), st') /\
    files st' !! filename = Some (header :: rows) /\
    rows = (CsvRow ∘ exported <$> items results) /\
    length rows = length (items results) /\
    (forall a, length (exported a) = 7%nat) /\
    (items results = [] -> files st' !! filename = Some [header]).
Proof.
  intros Hend Hw. apply iter_items in Hend.
  remember (items results) as l eqn:Hl. clear Hl. subst results.
  rewrite (write_to_csv_iter _ _ _ Hw).
  do 2 eexists. split; [reflexivity|]. simpl.
  rewrite lookup_insert_eq. repeat split.
  - now rewrite length_fmap.
  - intros a. unfold exported. now destruct (neo a).
  - now intros ->.
Qed.

(** C5. On a writable destination, for an input that runs to its end
    with N records, [write_to_json] dumps one top-level list of exactly N
    nested records in input order, each with the datetime, distance and
    velocity and a nested ["neo"] record with designation, name, diameter
    and hazard flag; for no record the list is empty. *)
Theorem json_one_nested_record_per_record
    (results : iterable CloseApproach) (filename : string) (st : fs) :
  iter_error results = None ->
  filename ∉ unwritable st ->
  exists st' entries,
    write_to_json results filename st = (Ok (), st') /\
    files st' !! filename = Some [JsonDump (VList entries) 2] /\
    entries = (nested <$> items results) /\
    length entries = length (items results) /\
    (forall a, exists t d v des nm dia haz,
        nested a =
        VDict [("datetime_utc", t); ("distance_au", d); ("velocity_km_s", v);
               ("neo", VDict [("designation", des); ("name", nm);
                              ("diameter_km", dia);
                              ("potentially_hazardous", haz)])] /\
        exported a = [t; d; v; des; nm; dia; haz]) /\
    (items results = [] -> entries = []).
Proof.
  intros Hend Hw. apply iter_items in Hend.
  remember (items results) as l eqn:Hl. clear Hl. subst results.
  rewrite (write_to_json_iter _ _ _ Hw).
  do 2 eexists. split; [reflexivity|]. simpl.
  rewrite lookup_insert_eq. repeat split.
  - now rewrite length_fmap.
  - intros a. unfold nested, exported.
    destruct (neo a); simpl; repeat eexists.
  - now intros ->.
Qed.

(** C6. A record without a linked NEO, anywhere in an input that runs to
    its end, does not make either writer raise, and both emit for it the
    empty string as designation and as name, not-a-number as diameter
    and [False] as hazard flag. *)
Theorem unlinked_record_defaults
    (results : iterable CloseApproach) (i : nat) (a : CloseApproach)
    (filename : string) (st : fs) :
  iter_error results = None ->
  items results !! i = Some a ->
  neo a = None ->
  filename ∉ unwritable st ->
  (exists st' rows,
      write_to_csv results filename st = (Ok (), st') /\
      files st' !! filename = Some (header :: rows) /\
      rows !! i =
      Some (CsvRow [VStr (time_str a); VFloat (distance a);
                    VFloat (velocity a);
                    VStr ""; VStr ""; VFloat nan; VBool false])) /\
  (exists st' entries,
      write_to_json results filename st = (Ok (), st') /\
      files st' !! filename = Some [JsonDump (VList entries) 2] /\
      entries !! i =
      Some (VDict [("datetime_utc", VStr (time_str a));
                   ("distance_au", VFloat (distance a));
                   ("velocity_km_s", VFloat (velocity a));
                   ("neo", VDict [("designation", VStr "");
                                  ("name", VStr "");
                                  ("diameter_km", VFloat nan);
                                  ("potentially_hazardous", VBool false)])])).
Proof.
  intros Hend Hi Hneo Hw. apply iter_items in Hend.
  remember (items results) as l eqn:Hl. clear Hl. subst results. split.
  - rewrite (write_to_csv_iter _ _ _ Hw).
    do 2 eexists. split; [reflexivity|]. simpl.
    rewrite lookup_insert_eq. split; [reflexivity|].
    rewrite list_lookup_fmap, Hi. simpl. unfold exported.
    now rewrite Hneo.
  - rewrite (write_to_json_iter _ _ _ Hw).
    do 2 eexists. split; [reflexivity|]. simpl.
    rewrite lookup_insert_eq. split; [reflexivity|].
    rewrite list_lookup_fmap, Hi. simpl. unfold nested, exported.
    now rewrite Hneo.
Qed.

(** Column by column, the exported values of a record are the values of
    its nested record. *)
Lemma exported_nested_agree (a : CloseApproach) (j : nat) (key : string) :
  fieldnames !! j = Some key ->
  exists v, exported a !! j = Some v /\ json_field (nested a) key = Some v.
Proof.
  intros Hj. unfold nested, exported.
  do 7 (destruct j as [|j];
        [injection Hj as <-; destruct (neo a); eexists; split; reflexivity|]).
  discriminate.
Qed.

(** C9. On the same input, the value [write_to_csv] writes in column
    [key] of the row of the i-th record is the value [write_to_json]
    places under [key] in the i-th nested record (in the record itself
    for the three approach columns, in its ["neo"] record for the four
    others). *)
Theorem writers_agree_on_every_field
    (results : iterable CloseApproach) (csv_name json_name : string)
    (st1 st2 : fs) :
  iter_error results = None ->
  csv_name ∉ unwritable st1 ->
  json_name ∉ unwritable st2 ->
  exists st1' st2' rows entries,
    write_to_csv results csv_name st1 = (Ok (), st1') /\
    files st1' !! csv_name = Some (header :: (CsvRow <$> rows)) /\
    write_to_json results json_name st2 = (Ok (), st2') /\
    files st2' !! json_name = Some [JsonDump (VList entries) 2] /\
    length rows = length entries /\
    forall i j key cells entry,
      rows !! i = Some cells ->
      entries !! i = Some entry ->
      fieldnames !! j = Some key ->
      exists v, cells !! j = Some v /\ json_field entry key = Some v.
Proof.
  intros Hend Hw1 Hw2. apply iter_items in Hend.
  remember (items results) as l eqn:Hl. clear Hl. subst results.
  rewrite (write_to_csv_iter _ _ _ Hw1), (write_to_json_iter _ _ _ Hw2).
  do 2 eexists. exists (exported <$> l), (nested <$> l).
  split; [reflexivity|]. simpl.
  rewrite lookup_insert_eq, <- list_fmap_compose.
  split; [reflexivity|]. split; [reflexivity|]. simpl.
  rewrite lookup_insert_eq. split; [reflexivity|]. split.
  - now rewrite !length_fmap.
  - intros i j key cells entry Hc He Hj.
    rewrite list_lookup_fmap in Hc. rewrite list_lookup_fmap in He.
    destruct (l !! i) as [a|]; [|discriminate].
    injection Hc as <-. injection He as <-.
    now apply exported_nested_agree.
Qed.

(** C10. When iterating the input raises, [write_to_json] raises the same
    exception with the file system exactly as it was: no handle was
    acquired, and the destination was neither created nor changed. *)
Theorem json_leaves_destination_untouched_on_error
    (results : iterable CloseApproach) (e : exn) (filename : string)
    (st : fs) :
  iter_error results = Some e ->
  write_to_json results filename st = (Raise e, st).
Proof.
  intros E. unfold write_to_json, mbind, io_mbind, io_bind, io_lift.
  now rewrite (json_loop_raises results e E).
Qed.

End Writers.

(** * The properties at work on the stand-ins *)

Section Examples.

Import Sample.

Lemma construction_is_total_witness :
  exists n c,
    NearEarthObject_init (RStr "") RNone (RStr "N") (RStr "big") [] = Ok n /\
    CloseApproach_init RNone (RStr "2020-Jan-01 12:30") (RStr "") RNone []
      = Ok c /\
    designation n = None /\ name n = None /\ diameter n = nan /\
    hazardous n = false /\
    _designation c = None /\ distance c = nan /\ velocity c = nan.
Proof.
  destruct (construction_is_total (B:=builtins) (H:=helpers)
              (RStr "") RNone (RStr "N") (RStr "big")
              RNone (RStr "2020-Jan-01 12:30") (RStr "") RNone []
              "2020-Jan-01 12:30" eq_refl)
    as [(n & Hn & Hdes & Hname & Hdia & Hhaz) (c & Hc & Hsnap & Hdist & Hvel)].
  exists n, c. repeat split.
  - exact Hn.
  - exact Hc.
  - now apply Hdes.
  - now apply Hname.
  - apply Hdia. now exists ValueError.
  - now apply Hhaz.
  - now apply Hsnap.
  - apply Hdist. now exists ValueError.
  - apply Hvel. now exists TypeError.
Defined.

(** The flag is compared as it is: no other spelling of ["Y"] counts. *)
Example hazardous_flags :
  (fun pha => NearEarthObject_init (RStr "433") (RStr "Eros") pha RNone []
                ≫= fun n => Ok (hazardous n))
    <$> [RStr "Y"; RStr "N"; RStr ""; RNone; RStr "y"; RStr "Y "; RStr "yes"]
  = [Ok true; Ok false; Ok false; Ok false; Ok false; Ok false; Ok false].
Proof. reflexivity. Qed.

Lemma numeric_fields_parse_or_nan_witness :
  stores_diameter (RStr "0.25") 0.25%float /\
  stores_distance (RStr "0.25") 0.25%float /\
  stores_velocity (RStr "0.25") 0.25%float /\
  stores_diameter (RStr "n/a") nan /\
  stores_distance RNone nan /\
  stores_velocity (RStr "") nan.
Proof.
  destruct (numeric_fields_parse_or_nan (B:=builtins) (H:=helpers))
    as [Hparsed Hnan].
  destruct (Hparsed "0.25" 0.25%float eq_refl) as (Hd & Hs & Hv).
  repeat split; [exact Hd|exact Hs|exact Hv| | |].
  - apply Hnan. right. right. now exists "n/a".
  - apply Hnan. now left.
  - apply Hnan. right. now left.
Defined.

Lemma fullname_concatenates_witness :
  fullname eros = Ok "433 Eros" /\ fullname unnamed = Raise TypeError.
Proof.
  split.
  - exact (proj1 (fullname_concatenates (B:=builtins) eros)
             "433" "Eros" eq_refl eq_refl).
  - exact (proj2 (proj2 (fullname_concatenates (B:=builtins) unnamed))
             eq_refl).
Defined.

(** C7 as worded fails.  A close approach and a NEO whose rows both lack
    the designation: the snapshot is absent, the record is linked, and the
    NEO has a name; the display string says "by an unknown object" where
    the wording selects the NEO's name. *)
Lemma neo_reference_ignores_link_without_snapshot :
  neo_reference (approach_of None (Some nameless_key))
    = "by an unknown object" /\
  worded_reference (approach_of None (Some nameless_key)) = "by Eros" /\
  neo_reference (approach_of None (Some nameless_key))
    <> worded_reference (approach_of None (Some nameless_key)).
Proof. repeat split. discriminate. Qed.

(** A linked NEO without a name is referred to by the snapshot, not by
    the NEO's own designation. *)
Example neo_reference_prefers_snapshot :
  neo_reference (approach_of (Some "433") (Some unnamed)) = "by 433" /\
  worded_reference (approach_of (Some "433") (Some unnamed)) = "by 434".
Proof. split; reflexivity. Qed.

Lemma neo_reference_selection_witness :
  neo_reference (approach_of (Some "433") (Some eros)) = "by Eros" /\
  neo_reference (approach_of (Some "433") (Some unnamed)) = "by 433" /\
  neo_reference (approach_of (Some "433") None) = "by 433" /\
  neo_reference (approach_of None (Some eros)) = "by an unknown object".
Proof.
  split; [|split; [|split]].
  - destruct (neo_reference_selection (H:=helpers)
                (approach_of (Some "433") (Some eros)))
      as (_ & Hsnap & _).
    destruct (Hsnap "433" eq_refl) as (Hname & _); [discriminate|].
    apply (Hname eros "Eros"); [reflexivity|reflexivity|discriminate].
  - destruct (neo_reference_selection (H:=helpers)
                (approach_of (Some "433") (Some unnamed)))
      as (_ & Hsnap & _).
    destruct (Hsnap "433" eq_refl) as (_ & Hnoname & _); [discriminate|].
    now apply (Hnoname unnamed).
  - destruct (neo_reference_selection (H:=helpers)
                (approach_of (Some "433") None))
      as (_ & Hsnap & _).
    destruct (Hsnap "433" eq_refl) as (_ & _ & Hnone); [discriminate|].
    now apply Hnone.
  - exact (proj1 (neo_reference_selection (H:=helpers)
                    (approach_of None (Some eros))) eq_refl).
Defined.

Example display_string :
  CloseApproach_str (approach_of (Some "433") (Some eros)) =
  "A CloseApproach at 2020-Jan-01 12:30 by Eros, " ++
  "approaching at 0.25 au and a velocity of 4.50 km/s.".
Proof. reflexivity. Qed.

Lemma csv_header_and_one_row_per_record_witness :
  exists st' rows,
    write_to_csv (iter two_records) "out.csv" empty_fs = (Ok (), st') /\
    files st' !! "out.csv" = Some (header :: rows) /\
    length rows = 2%nat.
Proof.
  destruct (csv_header_and_one_row_per_record (B:=builtins) (H:=helpers)
              (iter two_records) "out.csv" empty_fs eq_refl)
    as (st' & rows & Hrun & Hfile & _ & Hlen & _).
  - apply not_elem_of_empty.
  - now exists st', rows.
Defined.

Lemma json_one_nested_record_per_record_witness :
  exists st' entries,
    write_to_json (iter two_records) "out.json" empty_fs = (Ok (), st') /\
    files st' !! "out.json" = Some [JsonDump (VList entries) 2] /\
    length entries = 2%nat.
Proof.
  destruct (json_one_nested_record_per_record (B:=builtins) (H:=helpers)
              (iter two_records) "out.json" empty_fs eq_refl)
    as (st' & entries & Hrun & Hfile & _ & Hlen & _).
  - apply not_elem_of_empty.
  - now exists st', entries.
Defined.

Lemma unlinked_record_defaults_witness :
  (exists st' rows,
      write_to_csv (iter two_records) "out.csv" empty_fs = (Ok (), st') /\
      files st' !! "out.csv" = Some (header :: rows) /\
      rows !! 1%nat =
      Some (CsvRow [VStr "2020-Jan-01 12:30"; VFloat 0.25; VFloat 4.5;
                    VStr ""; VStr ""; VFloat nan; VBool false])) /\
  (exists st' entries,
      write_to_json (iter two_records) "out.csv" empty_fs = (Ok (), st') /\
      files st' !! "out.csv" = Some [JsonDump (VList entries) 2] /\
      entries !! 1%nat =
      Some (VDict [("datetime_utc", VStr "2020-Jan-01 12:30");
                   ("distance_au", VFloat 0.25);
                   ("velocity_km_s", VFloat 4.5);
                   ("neo", VDict [("designation", VStr "");
                                  ("name", VStr "");
                                  ("diameter_km", VFloat nan);
                                  ("potentially_hazardous", VBool false)])])).
Proof.
  apply (unlinked_record_defaults (B:=builtins) (H:=helpers)
           (iter two_records) 1 (approach_of (Some "2020 AB") None)
           "out.csv" empty_fs eq_refl eq_refl eq_refl).
  apply not_elem_of_empty.
Defined.

Lemma writers_agree_on_every_field_witness :
  exists st1' st2' rows entries,
    write_to_csv (iter two_records) "out.csv" empty_fs = (Ok (), st1') /\
    write_to_json (iter two_records) "out.json" empty_fs = (Ok (), st2') /\
    files st1' !! "out.csv" = Some (header :: (CsvRow <$> rows)) /\
    files st2' !! "out.json" = Some [JsonDump (VList entries) 2] /\
    forall cells entry,
      rows !! 0%nat = Some cells -> entries !! 0%nat = Some entry ->
      exists v, cells !! 4%nat = Some v /\ json_field entry "name" = Some v.
Proof.
  destruct (writers_agree_on_every_field (B:=builtins) (H:=helpers)
              (iter two_records) "out.csv" "out.json" empty_fs empty_fs
              eq_refl)
    as (st1' & st2' & rows & entries &
        Hcsv & Hrows & Hjson & Hdoc & _ & Hagree).
  - apply not_elem_of_empty.
  - apply not_elem_of_empty.
  - exists st1', st2', rows, entries. repeat split; try assumption.
    intros cells entry Hc He. now apply (Hagree 0%nat 4%nat "name").
Defined.

Lemma json_leaves_destination_untouched_on_error_witness :
  write_to_json failing "out.json" empty_fs
    = (Raise (OtherError "RuntimeError"), empty_fs).
Proof.
  exact (json_leaves_destination_untouched_on_error
           (B:=builtins) (H:=helpers) failing (OtherError "RuntimeError")
           "out.json" empty_fs eq_refl).
Defined.

(** By contrast [write_to_csv] opens the destination before it iterates:
    on the same input the file is left with the header and the rows
    written before the exception, and the handle is released. *)
Example csv_keeps_partial_file_on_error :
  exists st',
    write_to_csv failing "out.csv" empty_fs
      = (Raise (OtherError "RuntimeError"), st') /\
    length <$> files st' !! "out.csv" = Some 2%nat /\
    events st' = [EOpen "out.csv"; EClose "out.csv"].
Proof. eexists. repeat split. Qed.

(** A destination that cannot be opened: [OSError], nothing written. *)
Example unwritable_destination :
  write_to_csv (iter two_records) "/proc/out" locked_fs
    = (Raise OSError, locked_fs) /\
  write_to_json (iter two_records) "/proc/out" locked_fs
    = (Raise OSError, locked_fs).
Proof. split; reflexivity. Qed.

End Examples.

(** * Further properties of the models *)

Section MoreConstruction.

Context `{B : Builtins} `{H : Helpers}.

(** A raw field is stored exactly when it is a non-empty string. *)
Lemma stored_str (v : raw) (s : string) :
  (if truthy v then Some (py_str v) else None) = Some s <->
  v = RStr s /\ s <> "".
Proof.
  destruct v as [|s']; simpl.
  - split; [discriminate|now intros [? _]].
  - destruct (String.eqb_spec s' "") as [->|Hne]; simpl.
    + split; [discriminate|]. now intros [[= <-] Hs].
    + split; [now intros [= <-]|now intros [[= <-] _]].
Qed.

(** X1. The constructors never store an empty string: the designation
    and the name of a new [NearEarthObject], and the designation snapshot
    of a new [CloseApproach], hold a string exactly when the raw field is
    a non-empty string, and then that very string; the new objects start
    without approaches and without a NEO. *)
Theorem stored_strings_are_nonempty
    (pdes name' pha diameter' des cd dist v_rel : raw)
    (info : list (string * raw)) (t : datetime) :
  cd_to_datetime cd = Ok t ->
  exists n c,
    NearEarthObject_init pdes name' pha diameter' info = Ok n /\
    CloseApproach_init des cd dist v_rel info = Ok c /\
    (forall s, designation n = Some s <-> pdes = RStr s /\ s <> "") /\
    (forall s, name n = Some s <-> name' = RStr s /\ s <> "") /\
    (forall s, _designation c = Some s <-> des = RStr s /\ s <> "") /\
    approaches n = [] /\ neo c = None.
Proof.
  intros Ht. do 2 eexists.
  split; [apply NearEarthObject_init_eq|].
  split; [apply (CloseApproach_init_eq _ _ _ _ _ t Ht)|]. simpl.
  split; [intros s; apply stored_str|].
  split; [intros s; apply stored_str|].
  split; [intros s; apply stored_str|].
  split; reflexivity.
Qed.

(** X2. The full name of a newly constructed NEO is defined exactly when
    both the raw designation and the raw name are non-empty strings; it
    raises [TypeError] when either is missing, so also for a named NEO
    whose designation is missing. *)
Theorem fullname_of_constructed
    (pdes name' pha diameter' : raw) (info : list (string * raw)) :
  NearEarthObject_init pdes name' pha diameter' info ≫= fullname =
  if truthy pdes && truthy name'
  then Ok (py_str pdes ++ " " ++ py_str name')
  else Raise TypeError.
Proof.
  rewrite NearEarthObject_init_eq. unfold fullname. simpl.
  destruct (truthy pdes), (truthy name'); simpl; try reflexivity.
  f_equal. apply append_assoc.
Qed.

Lemma truthy_attr_stored (v : raw) :
  truthy_attr (if truthy v then Some (py_str v) else None) = truthy v.
Proof.
  destruct v as [|s]; simpl; [reflexivity|].
  destruct (String.eqb s "") eqn:E; simpl; [reflexivity|now rewrite E].
Qed.

(** X3. The display string of a newly constructed close approach, in
    terms of the raw fields: it refers to the object by the raw
    designation, or as "an unknown object" when that is missing, and it
    reports a distance or velocity as unknown when the raw field is
    missing, unparsable, or parses to not-a-number. *)
Theorem display_of_constructed
    (des cd dist v_rel : raw) (info : list (string * raw)) (t : datetime) :
  cd_to_datetime cd = Ok t ->
  exists self,
    CloseApproach_init des cd dist v_rel info = Ok self /\
    CloseApproach_str self =
    "A CloseApproach at " ++ datetime_to_str t ++ " " ++
    (if truthy des then "by " ++ py_str des else "by an unknown object") ++
    ", approaching at " ++ phrase_of dist "distance" "au" ++
    " and a velocity of " ++ phrase_of v_rel "velocity" "km/s" ++ ".".
Proof.
  intros Ht. eexists.
  split; [apply (CloseApproach_init_eq _ _ _ _ _ t Ht)|].
  unfold CloseApproach_str, neo_reference, time_str, phrase_of. simpl.
  rewrite truthy_attr_stored.
  assert (Hnan : PrimFloat.is_nan nan = true) by reflexivity.
  repeat f_equal.
  - now destruct (truthy des).
  - destruct (py_float dist) as [x|e]; [|now rewrite Hnan].
    now destruct (PrimFloat.is_nan x).
  - destruct (py_float v_rel) as [x|e]; [|now rewrite Hnan].
    now destruct (PrimFloat.is_nan x).
Qed.

End MoreConstruction.

Section MoreDisplay.

Context `{B : Builtins} `{D : Display}.

(** X4. The display string of a newly constructed NEO, in terms of the
    raw fields: a missing designation is printed as the text "None", a
    missing name as "unnamed", the flag as "hazardous" only for ["Y"], and
    the diameter as "unknown" when the raw field is missing, unparsable,
    or parses to not-a-number. *)
Theorem neo_display_of_constructed
    (pdes name' pha diameter' : raw) (info : list (string * raw)) :
  exists self,
    NearEarthObject_init pdes name' pha diameter' info = Ok self /\
    NearEarthObject_str self =
    "NEO " ++ (if truthy pdes then py_str pdes else "None") ++
    " (" ++ (if truthy name' then py_str name' else "unnamed") ++
    "), " ++ (if eq_str pha "Y" then "hazardous" else "non-hazardous") ++
    ", diameter: " ++
    match py_float diameter' with
    | Ok x => if PrimFloat.is_nan x then "unknown" else float_str x
    | Raise _ => "unknown"
    end ++
    " km".
Proof.
  eexists. split; [apply NearEarthObject_init_eq|].
  unfold NearEarthObject_str. simpl. rewrite truthy_attr_stored.
  assert (Hnan : PrimFloat.is_nan nan = true) by reflexivity.
  repeat f_equal.
  - now destruct (truthy pdes).
  - now destruct (truthy name').
  - destruct (py_float diameter') as [x|e]; [|now rewrite Hnan].
    now destruct (PrimFloat.is_nan x).
Qed.

End MoreDisplay.

Section MoreWriters.

Context `{B : Builtins} `{H : Helpers}.

(** The loop of [write_to_csv] on any input: one row per item yielded,
    then the loop ends as the iteration does. *)
Lemma csv_loop_run (results : iterable CloseApproach) (path : string) :
  forall (st : fs) (rows : list chunk),
    files st !! path = Some rows ->
    csv_loop results path st =
    (iteration_outcome results,
     {| files :=
          <[path := (rows ++ (CsvRow ∘ exported <$> items results))%list]>
            (files st);
        unwritable := unwritable st;
        events := events st |}).
Proof.
  induction results as [|a rest IH|e]; intros st rows Hrows.
  - simpl. unfold io_ret. rewrite app_nil_r, insert_id by exact Hrows.
    now destruct st.
  - pose proof (csv_rowdict_cells a) as Hcells.
    simpl. unfold mbind, io_mbind, io_bind at 1, io_lift at 1.
    destruct (csv_rowdict a) as [d|e]; [|discriminate]. simpl in Hcells.
    unfold io_bind at 1, DictWriter_writerow, mbind, io_mbind.
    unfold io_bind at 1, io_lift.
    rewrite Hcells. unfold write_chunk at 1. rewrite Hrows. simpl.
    erewrite IH by (simpl; apply lookup_insert_eq).
    simpl. now rewrite insert_insert_eq, <- app_assoc.
  - simpl. unfold io_raise. rewrite app_nil_r, insert_id by exact Hrows.
    now destruct st.
Qed.

(** [write_to_csv] on a destination that [open] accepts, for any input. *)
Lemma write_to_csv_run (results : iterable CloseApproach) (path : string)
    (st : fs) :
  path ∉ unwritable st ->
  write_to_csv results path st =
  (iteration_outcome results,
   {| files := <[path := header :: (CsvRow ∘ exported <$> items results)]>
                 (files st);
      unwritable := unwritable st;
      events := (events st ++ [EOpen path; EClose path])%list |}).
Proof.
  intros Hw. unfold write_to_csv, with_open, open_w.
  rewrite bool_decide_eq_false_2 by exact Hw.
  unfold mbind, io_mbind, io_bind at 1.
  unfold DictWriter_writeheader, DictWriter_writerow, mbind, io_mbind.
  unfold io_bind at 1, io_lift.
  change (DictWriter_dict_to_list fieldnames
            (zip fieldnames (VStr <$> fieldnames)))
    with (Ok (VStr <$> fieldnames)).
  unfold write_chunk. simpl files. rewrite lookup_insert_eq. simpl.
  erewrite csv_loop_run by (simpl; apply lookup_insert_eq).
  unfold close. simpl.
  now rewrite !insert_insert_eq, <- app_assoc.
Qed.

(** [write_to_csv] on a destination that [open] refuses, for any input. *)
Lemma write_to_csv_denied (results : iterable CloseApproach)
    (path : string) (st : fs) :
  path ∈ unwritable st ->
  write_to_csv results path st = (Raise OSError, st).
Proof.
  intros Hd. unfold write_to_csv, with_open, open_w.
  now rewrite bool_decide_eq_true_2 by exact Hd.
Qed.

(** The loop of [write_to_json] on any input. *)
Lemma json_loop_run (results : iterable CloseApproach) :
  forall output,
    json_loop results output =
    match iter_error results with
    | None => Ok (output ++ (nested <$> items results))%list
    | Some e => Raise e
    end.
Proof.
  induction results as [|a rest IH|e]; intros output; simpl.
  - now rewrite app_nil_r.
  - rewrite json_entry_nested. simpl. rewrite IH.
    destruct (iter_error rest); [reflexivity|]. now rewrite <- app_assoc.
  - reflexivity.
Qed.

(** [write_to_json] on any input and destination. *)
Lemma write_to_json_run (results : iterable CloseApproach) (path : string)
    (st : fs) :
  write_to_json results path st =
  match iter_error results with
  | Some e => (Raise e, st)
  | None =>
      if bool_decide (path ∈ unwritable st) then (Raise OSError, st)
      else
        (Ok (),
         {| files :=
              <[path := [JsonDump (VList (nested <$> items results)) 2]]>
                (files st);
            unwritable := unwritable st;
            events := (events st ++ [EOpen path; EClose path])%list |})
  end.
Proof.
  unfold write_to_json, mbind, io_mbind, io_bind, io_lift.
  rewrite json_loop_run. destruct (iter_error results); [reflexivity|].
  simpl. unfold with_open, open_w.
  destruct (bool_decide (path ∈ unwritable st)); [reflexivity|].
  unfold write_chunk, close. simpl. rewrite lookup_insert_eq. simpl.
  now rewrite insert_insert_eq, <- app_assoc.
Qed.

(** X5. When iterating the input raises, [write_to_csv] raises the same
    exception after the destination was created: the file is left with the
    header and one row for each record yielded before the exception, and
    the handle was released. *)
Theorem csv_partial_file_on_iteration_error
    (results : iterable CloseApproach) (e : exn) (filename : string)
    (st : fs) :
  iter_error results = Some e ->
  filename ∉ unwritable st ->
  exists st',
    write_to_csv results filename st = (Raise e, st') /\
    files st' !! filename =
      Some (header :: (CsvRow ∘ exported <$> items results)) /\
    events st' = (events st ++ [EOpen filename; EClose filename])%list.
Proof.
  intros He Hw. rewrite (write_to_csv_run _ _ _ Hw).
  unfold iteration_outcome. rewrite He.
  eexists. split; [reflexivity|]. simpl.
  now rewrite lookup_insert_eq.
Qed.

(** X6. A destination that cannot be opened leaves the file system as it
    was.  [write_to_csv] then raises [OSError] whatever the input, which
    it never starts to iterate; [write_to_json], which iterates first,
    raises the input's own exception if there is one and [OSError]
    otherwise. *)
Theorem refused_destination
    (results : iterable CloseApproach) (filename : string) (st : fs) :
  filename ∈ unwritable st ->
  write_to_csv results filename st = (Raise OSError, st) /\
  write_to_json results filename st =
    (match iter_error results with
     | Some e => Raise e
     | None => Raise OSError
     end, st).
Proof.
  intros Hd. split; [now apply write_to_csv_denied|].
  rewrite write_to_json_run. destruct (iter_error results); [reflexivity|].
  now rewrite bool_decide_eq_true_2 by exact Hd.
Qed.

(** X7. Neither writer touches any file but its destination, nor what
    can be opened, whatever the input and however the call ends. *)
Theorem writers_touch_only_destination
    (results : iterable CloseApproach) (filename other : string) (st : fs) :
  other <> filename ->
  files (write_to_csv results filename st).2 !! other = files st !! other /\
  files (write_to_json results filename st).2 !! other = files st !! other /\
  unwritable (write_to_csv results filename st).2 = unwritable st /\
  unwritable (write_to_json results filename st).2 = unwritable st.
Proof.
  intros Hne. rewrite write_to_json_run.
  destruct (decide (filename ∈ unwritable st)) as [Hd|Hw].
  - rewrite (write_to_csv_denied _ _ _ Hd).
    rewrite bool_decide_eq_true_2 by exact Hd.
    now destruct (iter_error results).
  - rewrite (write_to_csv_run _ _ _ Hw).
    rewrite bool_decide_eq_false_2 by exact Hw.
    destruct (iter_error results); simpl;
      rewrite ?lookup_insert_ne by (intros ->; now apply Hne); auto.
Qed.

(** X8. Every handle a writer acquires it releases, on every exit: the
    only events of a call are the opening and the closing of its
    destination, both or neither. *)
Theorem handle_is_released
    (results : iterable CloseApproach) (filename : string) (st : fs) :
  events (write_to_csv results filename st).2 =
    (events st ++
     if bool_decide (filename ∈ unwritable st) then []
     else [EOpen filename; EClose filename])%list /\
  events (write_to_json results filename st).2 =
    (events st ++
     match iter_error results with
     | Some _ => []
     | None =>
         if bool_decide (filename ∈ unwritable st) then []
         else [EOpen filename; EClose filename]
     end)%list.
Proof.
  rewrite write_to_json_run.
  destruct (decide (filename ∈ unwritable st)) as [Hd|Hw].
  - rewrite (write_to_csv_denied _ _ _ Hd).
    rewrite bool_decide_eq_true_2 by exact Hd.
    destruct (iter_error results); simpl; now rewrite app_nil_r.
  - rewrite (write_to_csv_run _ _ _ Hw).
    rewrite bool_decide_eq_false_2 by exact Hw.
    destruct (iter_error results); simpl; now rewrite ?app_nil_r.
Qed.

(** X9. A writer replaces its destination: what the file holds after the
    call does not depend on what the file system held before.  For
    [write_to_csv] this is so for every input, for [write_to_json] for
    every input that runs to its end. *)
Theorem destination_is_overwritten
    (results : iterable CloseApproach) (filename : string) (st1 st2 : fs) :
  filename ∉ unwritable st1 ->
  filename ∉ unwritable st2 ->
  files (write_to_csv results filename st1).2 !! filename =
    files (write_to_csv results filename st2).2 !! filename /\
  (iter_error results = None ->
   files (write_to_json results filename st1).2 !! filename =
     files (write_to_json results filename st2).2 !! filename).
Proof.
  intros Hw1 Hw2. split.
  - rewrite (write_to_csv_run _ _ _ Hw1), (write_to_csv_run _ _ _ Hw2).
    simpl. now rewrite !lookup_insert_eq.
  - intros Hend. rewrite !write_to_json_run, Hend.
    rewrite !bool_decide_eq_false_2 by assumption.
    simpl. now rewrite !lookup_insert_eq.
Qed.

(** X10. In both exports the name of a record is always a string, never
    null, and the same string in both; the designation is null exactly
    when the record is linked to a NEO whose designation is [None]. *)
Theorem name_is_never_null (a : CloseApproach) :
  exists d cells entry,
    csv_rowdict a = Ok d /\
    DictWriter_dict_to_list fieldnames d = Ok cells /\
    json_entry a = Ok entry /\
    (exists s, cells !! 4%nat = Some (VStr s) /\
               json_field entry "name" = Some (VStr s)) /\
    (cells !! 3%nat = Some VNone <->
     exists n, neo a = Some n /\ designation n = None) /\
    (json_field entry "designation" = Some VNone <->
     exists n, neo a = Some n /\ designation n = None).
Proof.
  unfold csv_rowdict, json_entry.
  destruct (neo a) as [n|].
  - do 3 eexists. do 3 (split; [reflexivity|]). simpl.
    split; [|split].
    + destruct (name n) as [m|]; simpl; [|now exists ""].
      destruct (String.eqb m ""); simpl; eauto.
    + destruct (designation n) as [s|] eqn:E; cbn.
      * split; [discriminate|]. intros (n' & [= <-] & Hn). congruence.
      * split; [now exists n|reflexivity].
    + destruct (designation n) as [s|] eqn:E; cbn.
      * split; [discriminate|]. intros (n' & [= <-] & Hn). congruence.
      * split; [now exists n|reflexivity].
  - rewrite float_nan_literal.
    do 3 eexists. do 3 (split; [reflexivity|]). simpl.
    split; [now exists ""|].
    split; (split; [discriminate|now intros (n & Hn & _)]).
Qed.

(** X11. From a raw NEO row to the exported record.  For a close approach
    linked to the NEO constructed from raw fields, both writers emit the
    raw designation, or null when it is missing; the raw name, or the
    empty string when it is missing; the parsed diameter, or not-a-number
    when it does not parse; and [True] only for the flag ["Y"]. *)
Theorem export_of_constructed_neo
    (a : CloseApproach) (n : NearEarthObject)
    (pdes name' pha diameter' : raw) (info : list (string * raw)) :
  NearEarthObject_init pdes name' pha diameter' info = Ok n ->
  neo a = Some n ->
  let des := if truthy pdes then VStr (py_str pdes) else VNone in
  let nm := VStr (if truthy name' then py_str name' else "") in
  let dia :=
    VFloat match py_float diameter' with Ok x => x | Raise _ => nan end in
  let haz := VBool (eq_str pha "Y") in
  csv_rowdict a ≫= DictWriter_dict_to_list fieldnames =
    Ok [VStr (time_str a); VFloat (distance a); VFloat (velocity a);
        des; nm; dia; haz] /\
  json_entry a =
    Ok (VDict [("datetime_utc", VStr (time_str a));
               ("distance_au", VFloat (distance a));
               ("velocity_km_s", VFloat (velocity a));
               ("neo", VDict [("designation", des); ("name", nm);
                              ("diameter_km", dia);
                              ("potentially_hazardous", haz)])]).
Proof.
  intros Hn Ha. rewrite NearEarthObject_init_eq in Hn.
  injection Hn as <-. unfold csv_rowdict, json_entry. rewrite Ha. simpl.
  rewrite truthy_attr_stored.
  split; destruct (truthy pdes), (truthy name'); reflexivity.
Qed.


End MoreWriters.

(** * The further properties at work on the stand-ins *)

Section MoreExamples.

Import Sample.

Lemma stored_strings_are_nonempty_witness :
  exists n c,
    NearEarthObject_init (RStr "433") (RStr "") (RStr "Y") RNone [] = Ok n /\
    CloseApproach_init (RStr "") (RStr "2020-Jan-01 12:30") RNone RNone []
      = Ok c /\
    designation n = Some "433" /\ name n <> Some "" /\
    _designation c <> Some "".
Proof.
  destruct (stored_strings_are_nonempty (B:=builtins) (H:=helpers)
              (RStr "433") (RStr "") (RStr "Y") RNone
              (RStr "") (RStr "2020-Jan-01 12:30") RNone RNone []
              "2020-Jan-01 12:30" eq_refl)
    as (n & c & Hn & Hc & Hdes & Hname & Hsnap & _).
  exists n, c. split; [exact Hn|]. split; [exact Hc|].
  split; [|split].
  - apply Hdes. split; [reflexivity|discriminate].
  - intros E. apply Hname in E. now destruct E as [_ E].
  - intros E. apply Hsnap in E. now destruct E as [_ E].
Defined.

Example fullname_needs_both :
  (fun fields =>
     NearEarthObject_init fields.1 fields.2 (RStr "N") RNone []
       ≫= fullname)
    <$> [(RStr "433", RStr "Eros"); (RStr "433", RStr "");
         (RNone, RStr "Eros"); (RStr "", RNone)]
  = [Ok "433 Eros"; Raise TypeError; Raise TypeError; Raise TypeError].
Proof. reflexivity. Qed.

Lemma display_of_constructed_witness :
  exists self,
    CloseApproach_init (RStr "433") (RStr "2020-Jan-01 12:30")
                       (RStr "") (RStr "4.5") [] = Ok self /\
    CloseApproach_str self =
    "A CloseApproach at 2020-Jan-01 12:30 by 433, " ++
    "approaching at an unknown distance and a velocity of 4.50 km/s.".
Proof.
  exact (display_of_constructed (B:=builtins) (H:=helpers)
           (RStr "433") (RStr "2020-Jan-01 12:30") (RStr "") (RStr "4.5") []
           "2020-Jan-01 12:30" eq_refl).
Defined.

Example neo_display_strings :
  NearEarthObject_str eros
    = "NEO 433 (Eros), non-hazardous, diameter: 16.75 km" /\
  NearEarthObject_str unnamed
    = "NEO 434 (unnamed), non-hazardous, diameter: unknown km" /\
  NearEarthObject_init (RStr "") RNone (RStr "Y") (RStr "nan") []
    ≫= (fun n => Ok (NearEarthObject_str n))
    = Ok "NEO None (unnamed), hazardous, diameter: unknown km".
Proof. repeat split. Qed.

Lemma csv_partial_file_on_iteration_error_witness :
  exists st',
    write_to_csv failing "out.csv" empty_fs
      = (Raise (OtherError "RuntimeError"), st') /\
    length <$> files st' !! "out.csv" = Some 2%nat /\
    events st' = [EOpen "out.csv"; EClose "out.csv"].
Proof.
  destruct (csv_partial_file_on_iteration_error (B:=builtins) (H:=helpers)
              failing (OtherError "RuntimeError") "out.csv" empty_fs eq_refl)
    as (st' & Hrun & Hfile & Hev).
  - apply not_elem_of_empty.
  - exists st'. split; [exact Hrun|]. split; [|exact Hev].
    now rewrite Hfile.
Defined.

Lemma refused_destination_witness :
  write_to_csv failing "/proc/out" locked_fs = (Raise OSError, locked_fs) /\
  write_to_json failing "/proc/out" locked_fs
    = (Raise (OtherError "RuntimeError"), locked_fs).
Proof.
  apply (refused_destination (B:=builtins) (H:=helpers)
           failing "/proc/out" locked_fs).
  simpl. now apply elem_of_singleton.
Defined.

Lemma writers_touch_only_destination_witness :
  files (write_to_json (iter two_records) "out.json" stale_fs).2 !! "out.csv"
    = Some [CsvRow [VStr "old"]; CsvRow [VStr "rows"]].
Proof.
  destruct (writers_touch_only_destination (B:=builtins) (H:=helpers)
              (iter two_records) "out.json" "out.csv" stale_fs)
    as (_ & Hjson & _); [discriminate|].
  rewrite Hjson. reflexivity.
Defined.

Lemma destination_is_overwritten_witness :
  files (write_to_csv (iter two_records) "out.csv" stale_fs).2 !! "out.csv" =
  files (write_to_csv (iter two_records) "out.csv" empty_fs).2 !! "out.csv".
Proof.
  apply (destination_is_overwritten (B:=builtins) (H:=helpers)
           (iter two_records) "out.csv" stale_fs empty_fs);
    apply not_elem_of_empty.
Defined.

Lemma export_of_constructed_neo_witness :
  csv_rowdict
    (approach_of (Some "2020 AB")
       (Some {| designation := None; name := None; diameter := nan;
                hazardous := true; approaches := [] |}))
    ≫= DictWriter_dict_to_list fieldnames =
  Ok [VStr "2020-Jan-01 12:30"; VFloat 0.25; VFloat 4.5;
      VNone; VStr ""; VFloat nan; VBool true].
Proof.
  exact (proj1 (export_of_constructed_neo (B:=builtins) (H:=helpers)
                  (approach_of (Some "2020 AB") _) _
                  (RStr "") RNone (RStr "Y") (RStr "big") []
                  eq_refl eq_refl)).
Defined.


End MoreExamples.
